(** * C-Note: the encrypted note store with timed access control

    A shallow embedding of the non-UI core of [note.py]: configuration
    loading, password hashing and the authorization session, key loading,
    the Fernet wrappers, the notes document and the editor-close handler.

    Conventions.
    - A Python [str] is the list of its code points ([pystr]); [bytes] is a
      list of octets ([bytes]).
    - Values that travel through [json.load]/[json.dump] are of type [value].
    - A Python function that may raise returns [result A]; the exception is
      a constructor of [exn].
    - The three files the program touches are fields of [disk]; a text file
      is seen through [json.load] (either it parses to a [value] or it does
      not), the key file as raw bytes.
    - Widgets are reduced to the state the handlers read and write; every
      dialog a handler may open is answered by a [dialog_answer] argument,
      and the dialogs and message boxes it does open are returned as
      [ui_event]s.
    - The clock ([datetime.now()], [time.time()]) and the random bytes the
      program draws are arguments of the functions that read them. *)

From Stdlib Require Import ZArith NArith QArith List String Ascii Bool Lia.
From stdpp Require Import base option list gmap.

Set Warnings "-register-all".

Local Open Scope Z_scope.

(** ** Python strings and bytes *)

Abbreviation pystr := (list N).
Abbreviation bytes := (list Z).

(** [py "lit"] is the Python literal ["lit"] (ASCII literals only). *)
Definition py (s : string) : pystr :=
  List.map N_of_ascii (list_ascii_of_string s).

(** [bytes_lit "lit"] is the bytes literal [b"lit"]. *)
Definition bytes_lit (s : string) : bytes :=
  List.map (fun a => Z.of_N (N_of_ascii a)) (list_ascii_of_string s).

(** ** Exceptions and the error monad *)

Inductive exn :=
| KeyError
| TypeError
| ValueError
| AttributeError
| UnicodeEncodeError
| UnicodeDecodeError
| JSONDecodeError
| FileNotFoundError
| PermissionError
| IndexError
| InvalidToken.

Inductive result (A : Type) :=
| Ok (a : A)
| Raise (e : exn).
Arguments Ok {A} a.
Arguments Raise {A} e.

#[global] Instance result_ret : MRet result := fun A a => Ok a.
#[global] Instance result_bind : MBind result := fun A B k r =>
  match r with
  | Ok a => k a
  | Raise e => Raise e
  end.

(** [try: body except Exception: handler]. *)
Definition try_except {A} (body : result A) (handler : result A) : result A :=
  match body with
  | Ok a => Ok a
  | Raise _ => handler
  end.

(** [try: body except E: handler] for one exception class. *)
Definition exn_eqb (a b : exn) : bool :=
  match a, b with
  | KeyError, KeyError | TypeError, TypeError | ValueError, ValueError
  | AttributeError, AttributeError
  | UnicodeEncodeError, UnicodeEncodeError
  | UnicodeDecodeError, UnicodeDecodeError
  | JSONDecodeError, JSONDecodeError
  | FileNotFoundError, FileNotFoundError
  | PermissionError, PermissionError
  | IndexError, IndexError
  | InvalidToken, InvalidToken => true
  | _, _ => false
  end.

Definition try_except_only {A} (body : result A) (cls : exn)
    (handler : result A) : result A :=
  match body with
  | Ok a => Ok a
  | Raise e => if exn_eqb e cls then handler else Raise e
  end.

(** ** JSON values as Python objects *)

Inductive value :=
| VNone
| VBool (b : bool)
| VInt (z : Z)
| VFloat (q : Q)
| VStr (s : pystr)
| VList (l : list value)
| VDict (d : gmap pystr value).

Definition pystr_eqb (a b : pystr) : bool := bool_decide (a = b).

(** Python truth value of an object. *)
Definition truthy (v : value) : bool :=
  match v with
  | VNone => false
  | VBool b => b
  | VInt z => negb (z =? 0)
  | VFloat q => negb (Qeq_bool q 0)
  | VStr s => match s with [] => false | _ => true end
  | VList l => match l with [] => false | _ => true end
  | VDict d => negb (bool_decide (d = ∅))
  end.

(** [s == v] for a [str] [s]: only an equal [str] is equal. *)
Definition str_eq_value (s : pystr) (v : value) : bool :=
  match v with
  | VStr t => pystr_eqb s t
  | _ => false
  end.

(** [needle in hay] for two strings: substring test. *)
Fixpoint is_prefix (p s : pystr) : bool :=
  match p, s with
  | [], _ => true
  | _ :: _, [] => false
  | a :: p', b :: s' => (a =? b)%N && is_prefix p' s'
  end.

Fixpoint is_substring (needle hay : pystr) : bool :=
  is_prefix needle hay ||
  match hay with
  | [] => false
  | _ :: hay' => is_substring needle hay'
  end.

(** [key in obj] for a [str] key. *)
Definition contains (obj : value) (key : pystr) : result bool :=
  match obj with
  | VDict d => Ok (bool_decide (is_Some (d !! key)))
  | VList l => Ok (existsb (str_eq_value key) l)
  | VStr s => Ok (is_substring key s)
  | _ => Raise TypeError
  end.

(** [obj[key] = v] for a [str] key: only a dict supports it. *)
Definition setitem (obj : value) (key : pystr) (v : value) : result value :=
  match obj with
  | VDict d => Ok (VDict (<[key := v]> d))
  | _ => Raise TypeError
  end.

(** [obj[key]] for a [str] key. *)
Definition getitem (obj : value) (key : pystr) : result value :=
  match obj with
  | VDict d => match d !! key with Some v => Ok v | None => Raise KeyError end
  | _ => Raise TypeError
  end.

(** [d.get(key, default)] on a dict. *)
Definition dict_get (d : gmap pystr value) (key : pystr) (default : value) : value :=
  match d !! key with
  | Some v => v
  | None => default
  end.

(** [obj.get(key, default)]: only dicts have the method. *)
Definition get (obj : value) (key : pystr) (default : value) : result value :=
  match obj with
  | VDict d => Ok (dict_get d key default)
  | _ => Raise AttributeError
  end.

(** ** The disk *)

Inductive file (A : Type) :=
| Absent
| Unreadable
| Present (a : A).
Arguments Absent {A}.
Arguments Unreadable {A}.
Arguments Present {A} a.

(** A text file as [json.load] sees it. *)
Inductive text :=
| Parses (v : value)
| Unparsable.

Record disk := {
  config_json : file text;
  secret_key : file bytes;
  notes_json : file text
}.

(** [os.path.exists]. *)
Definition exists_ {A} (f : file A) : bool :=
  match f with
  | Absent => false
  | _ => true
  end.

(** [open(path, "r")] followed by [json.load]. *)
Definition open_json_load (f : file text) : result value :=
  match f with
  | Absent => Raise FileNotFoundError
  | Unreadable => Raise PermissionError
  | Present Unparsable => Raise JSONDecodeError
  | Present (Parses v) => Ok v
  end.

(** [open(path, "w")] followed by [json.dump]. *)
Definition open_json_dump (f : file text) (v : value) : result (file text) :=
  match f with
  | Unreadable => Raise PermissionError
  | _ => Ok (Present (Parses v))
  end.

(** ** ConfigStore *)

Definition default_config : gmap pystr value :=
  <[py "password_protected" := VBool false]>
  (<[py "password_hash" := VStr []]>
  (<[py "password_timeout" := VInt 60]> ∅)).

(** The keys of [default_config] in iteration (insertion) order. *)
Definition default_keys : list pystr :=
  [py "password_protected"; py "password_hash"; py "password_timeout"].

Definition fill_key (config : value) (key : pystr) : result value :=
  present ← contains config key;
  if negb present
  then v ← getitem (VDict default_config) key; setitem config key v
  else Ok config.

Fixpoint fill_keys (keys : list pystr) (config : value) : result value :=
  match keys with
  | [] => Ok config
  | key :: rest => config' ← fill_key config key; fill_keys rest config'
  end.

Definition load_config (d : disk) : result value :=
  if negb (exists_ (config_json d)) then Ok (VDict default_config)
  else
    try_except
      (config ← open_json_load (config_json d);
       fill_keys default_keys config)
      (Ok (VDict default_config)).

Definition save_config (config : value) (d : disk) : result disk :=
  f ← open_json_dump (config_json d) config;
  Ok {| config_json := f; secret_key := secret_key d; notes_json := notes_json d |}.

(** ** [datetime.datetime] (naive) *)

Record datetime := {
  year : Z;
  month : Z;
  day : Z;
  hour : Z;
  minute : Z;
  second : Z;
  microsecond : Z
}.

Definition is_leap (y : Z) : bool :=
  (y mod 4 =? 0) && (negb (y mod 100 =? 0) || (y mod 400 =? 0)).

Definition days_in_month (y m : Z) : Z :=
  if m =? 2 then (if is_leap y then 29 else 28)
  else if (m =? 4) || (m =? 6) || (m =? 9) || (m =? 11) then 30
  else 31.

(** The range checks of the [datetime] constructor. *)
Definition valid_datetime (d : datetime) : bool :=
  (1 <=? year d) && (year d <=? 9999) &&
  (1 <=? month d) && (month d <=? 12) &&
  (1 <=? day d) && (day d <=? days_in_month (year d) (month d)) &&
  (0 <=? hour d) && (hour d <=? 23) &&
  (0 <=? minute d) && (minute d <=? 59) &&
  (0 <=? second d) && (second d <=? 59) &&
  (0 <=? microsecond d) && (microsecond d <=? 999999).

Definition mk_datetime (y mo d h mi s us : Z) : result datetime :=
  let dt := {| year := y; month := mo; day := d; hour := h; minute := mi;
               second := s; microsecond := us |} in
  if valid_datetime dt then Ok dt else Raise ValueError.

Definition days_before_year (y : Z) : Z :=
  let y1 := y - 1 in
  y1 * 365 + y1 / 4 - y1 / 100 + y1 / 400.

Definition days_before_month (y m : Z) : Z :=
  nth (Z.to_nat m) [0; 0; 31; 59; 90; 120; 151; 181; 212; 243; 273; 304; 334] 0
  + (if (2 <? m) && is_leap y then 1 else 0).

Definition toordinal (d : datetime) : Z :=
  days_before_year (year d) + days_before_month (year d) (month d) + day d.

(** Microseconds from 0001-01-01T00:00:00 to [d]; [d1 - d2] is the
    [timedelta] of [to_microseconds d1 - to_microseconds d2] microseconds. *)
Definition to_microseconds (d : datetime) : Z :=
  ((toordinal d - 1) * 86400
   + hour d * 3600 + minute d * 60 + second d) * 1000000
  + microsecond d.

(** *** [isoformat] *)

Definition digit_char (n : Z) : N := Z.to_N (48 + n mod 10).

Fixpoint digits (w : nat) (n : Z) : pystr :=
  match w with
  | O => []
  | S w' => digits w' (n / 10) ++ [digit_char n]
  end.

Fixpoint ndigits_aux (fuel : nat) (n : Z) : nat :=
  match fuel with
  | O => 1%nat
  | S f => if n <? 10 then 1%nat else S (ndigits_aux f (n / 10))
  end.

Definition ndigits (n : Z) : nat := ndigits_aux (Z.to_nat (Z.log2 n)) n.

(** ["%0wd" % n] for [0 <= n]. *)
Definition fmt_d (w : nat) (n : Z) : pystr := digits (Nat.max w (ndigits n)) n.

Definition isoformat (d : datetime) : pystr :=
  fmt_d 4 (year d) ++ py "-" ++ fmt_d 2 (month d) ++ py "-" ++ fmt_d 2 (day d)
  ++ py "T"
  ++ fmt_d 2 (hour d) ++ py ":" ++ fmt_d 2 (minute d) ++ py ":" ++ fmt_d 2 (second d)
  ++ (if microsecond d =? 0 then [] else py "." ++ fmt_d 6 (microsecond d)).

(** *** [fromisoformat]

    The reference implementation of [datetime.py] (the format written by
    [isoformat]: [YYYY-MM-DD[*HH[:MM[:SS[.fff[fff]]]]]]), with digits read
    strictly. Strings that carry a UTC offset would give an aware
    [datetime]; they are outside this model and reported as [ValueError]. *)

Definition digit_val (c : N) : option Z :=
  if ((48 <=? c) && (c <=? 57))%N then Some (Z.of_N c - 48) else None.

(** [int(s)] for a string of decimal digits. *)
Fixpoint parse_int_acc (acc : Z) (s : pystr) : option Z :=
  match s with
  | [] => Some acc
  | c :: s' =>
      match digit_val c with
      | Some v => parse_int_acc (acc * 10 + v) s'
      | None => None
      end
  end.

Definition parse_int (w : nat) (s : pystr) : option Z :=
  if (length s =? w)%nat then parse_int_acc 0 s else None.

Definition slice (i j : nat) (s : pystr) : pystr := take (j - i) (drop i s).

Definition parse_isoformat_date (dtstr : pystr) : option (Z * Z * Z) :=
  y ← parse_int 4 (slice 0 4 dtstr);
  _ ← guard (slice 4 5 dtstr = py "-");
  m ← parse_int 2 (slice 5 7 dtstr);
  _ ← guard (slice 7 8 dtstr = py "-");
  d ← parse_int 2 (slice 8 10 dtstr);
  Some (y, m, d).

Definition parse_fraction (s : pystr) : option Z :=
  match s with
  | [] => Some 0
  | c :: f =>
      if (c =? 46)%N then
        if (length f =? 6)%nat then parse_int 6 f
        else if (length f =? 3)%nat then (fun v => v * 1000) <$> parse_int 3 f
        else None
      else None
  end.

Definition parse_hh_mm_ss_ff (tstr : pystr) : option (Z * Z * Z * Z) :=
  h ← parse_int 2 (slice 0 2 tstr);
  match drop 2 tstr with
  | [] => Some (h, 0, 0, 0)
  | c :: r1 =>
      _ ← guard (c = 58%N);
      mi ← parse_int 2 (slice 0 2 r1);
      match drop 2 r1 with
      | [] => Some (h, mi, 0, 0)
      | c' :: r2 =>
          _ ← guard (c' = 58%N);
          s ← parse_int 2 (slice 0 2 r2);
          us ← parse_fraction (drop 2 r2);
          Some (h, mi, s, us)
      end
  end.

Definition fromisoformat_str (date_string : pystr) : result datetime :=
  let dstr := slice 0 10 date_string in
  let tstr := drop 11 date_string in
  match parse_isoformat_date dstr with
  | None => Raise ValueError
  | Some (y, m, d) =>
      match tstr with
      | [] => mk_datetime y m d 0 0 0 0
      | _ =>
          match parse_hh_mm_ss_ff tstr with
          | None => Raise ValueError
          | Some (h, mi, s, us) => mk_datetime y m d h mi s us
          end
      end
  end.

(** [datetime.datetime.fromisoformat(v)]: a non-[str] argument is a
    [TypeError]. *)
Definition fromisoformat (v : value) : result datetime :=
  match v with
  | VStr s => fromisoformat_str s
  | _ => Raise TypeError
  end.

(** ** UTF-8: [str.encode()] and [bytes.decode()] (strict) *)

Definition is_surrogate (c : Z) : bool := (0xD800 <=? c) && (c <=? 0xDFFF).

(** The UTF-8 encoding of one code point; a lone surrogate cannot be
    encoded, and nothing above U+10FFFF is a code point. *)
Definition utf8_encode_char (c : Z) : option bytes :=
  if c <? 0 then None
  else if c <? 0x80 then Some [c]
  else if c <? 0x800 then Some [0xC0 + c / 64; 0x80 + c mod 64]
  else if is_surrogate c then None
  else if c <? 0x10000 then
    Some [0xE0 + c / 4096; 0x80 + c / 64 mod 64; 0x80 + c mod 64]
  else if c <=? 0x10FFFF then
    Some [0xF0 + c / 262144; 0x80 + c / 4096 mod 64; 0x80 + c / 64 mod 64;
          0x80 + c mod 64]
  else None.

Fixpoint utf8_encode (s : pystr) : option bytes :=
  match s with
  | [] => Some []
  | c :: s' =>
      b ← utf8_encode_char (Z.of_N c);
      r ← utf8_encode s';
      Some (b ++ r)
  end.

(** [s.encode()]. *)
Definition encode (s : pystr) : result bytes :=
  match utf8_encode s with
  | Some b => Ok b
  | None => Raise UnicodeEncodeError
  end.

Definition is_cont (b : Z) : bool := (0x80 <=? b) && (b <=? 0xBF).

Fixpoint utf8_decode (b : bytes) : option pystr :=
  match b with
  | [] => Some []
  | b0 :: r =>
      if (0 <=? b0) && (b0 <? 0x80) then
        cons (Z.to_N b0) <$> utf8_decode r
      else if (0xC2 <=? b0) && (b0 <=? 0xDF) then
        match r with
        | b1 :: r' =>
            if is_cont b1
            then cons (Z.to_N ((b0 - 0xC0) * 64 + (b1 - 0x80))) <$> utf8_decode r'
            else None
        | _ => None
        end
      else if (0xE0 <=? b0) && (b0 <=? 0xEF) then
        match r with
        | b1 :: b2 :: r' =>
            let c := (b0 - 0xE0) * 4096 + (b1 - 0x80) * 64 + (b2 - 0x80) in
            if is_cont b1 && is_cont b2 && (0x800 <=? c) && negb (is_surrogate c)
            then cons (Z.to_N c) <$> utf8_decode r'
            else None
        | _ => None
        end
      else if (0xF0 <=? b0) && (b0 <=? 0xF4) then
        match r with
        | b1 :: b2 :: b3 :: r' =>
            let c := (b0 - 0xF0) * 262144 + (b1 - 0x80) * 4096
                     + (b2 - 0x80) * 64 + (b3 - 0x80) in
            if is_cont b1 && is_cont b2 && is_cont b3
               && (0x10000 <=? c) && (c <=? 0x10FFFF)
            then cons (Z.to_N c) <$> utf8_decode r'
            else None
        | _ => None
        end
      else None
  end.

(** [b.decode()]. *)
Definition decode (b : bytes) : result pystr :=
  match utf8_decode b with
  | Some s => Ok s
  | None => Raise UnicodeDecodeError
  end.

(** ** [hashlib.sha256] (FIPS 180-4) *)

Module SHA256.

Definition w32 (x : Z) : Z := x mod 2 ^ 32.
Definition add32 (x y : Z) : Z := w32 (x + y).
Definition rotr (n x : Z) : Z := Z.lor (Z.shiftr x n) (w32 (Z.shiftl x (32 - n))).
Definition shr (n x : Z) : Z := Z.shiftr x n.
Definition not32 (x : Z) : Z := 2 ^ 32 - 1 - x.

Definition Ch (x y z : Z) : Z := Z.lxor (Z.land x y) (Z.land (not32 x) z).
Definition Maj (x y z : Z) : Z :=
  Z.lxor (Z.lxor (Z.land x y) (Z.land x z)) (Z.land y z).
Definition Sigma0 (x : Z) : Z := Z.lxor (Z.lxor (rotr 2 x) (rotr 13 x)) (rotr 22 x).
Definition Sigma1 (x : Z) : Z := Z.lxor (Z.lxor (rotr 6 x) (rotr 11 x)) (rotr 25 x).
Definition sigma0 (x : Z) : Z := Z.lxor (Z.lxor (rotr 7 x) (rotr 18 x)) (shr 3 x).
Definition sigma1 (x : Z) : Z := Z.lxor (Z.lxor (rotr 17 x) (rotr 19 x)) (shr 10 x).

(** The round constants and the initial hash value are the first 32 bits
    of the fractional parts of the cube roots, respectively square roots, of
    the first primes. *)
Definition primes : list Z :=
  [2; 3; 5; 7; 11; 13; 17; 19; 23; 29; 31; 37; 41; 43; 47; 53; 59; 61; 67; 71;
   73; 79; 83; 89; 97; 101; 103; 107; 109; 113; 127; 131; 137; 139; 149; 151;
   157; 163; 167; 173; 179; 181; 191; 193; 197; 199; 211; 223; 227; 229; 233;
   239; 241; 251; 257; 263; 269; 271; 277; 281; 283; 293; 307; 311].

(** The largest [r] below [2 ^ bits] with [r ^ 3 <= n], bit by bit. *)
Fixpoint cube_root (bits : nat) (n r : Z) : Z :=
  match bits with
  | O => r
  | S b =>
      let r' := r + 2 ^ Z.of_nat b in
      cube_root b n (if r' * r' * r' <=? n then r' else r)
  end.

Definition frac_cube_root (p : Z) : Z := w32 (cube_root 36 (p * 2 ^ 96) 0).
Definition frac_square_root (p : Z) : Z := w32 (Z.sqrt (p * 2 ^ 64)).

Definition K : list Z := Eval vm_compute in List.map frac_cube_root primes.

Definition H0 : list Z := Eval vm_compute in List.map frac_square_root (take 8 primes).

(** Big-endian bytes of a [n]-byte word. *)
Fixpoint be_bytes (n : nat) (x : Z) : bytes :=
  match n with
  | O => []
  | S n' => be_bytes n' (x / 256) ++ [x mod 256]
  end.

Definition be_word (b : bytes) : Z := fold_left (fun acc x => acc * 256 + x) b 0.

(** Message padding: a 1 bit, zeros up to 56 mod 64, the bit length. *)
Definition pad (msg : bytes) : bytes :=
  let l := Z.of_nat (length msg) in
  let k := Z.to_nat ((55 - l) mod 64) in
  msg ++ [0x80] ++ repeat 0 k ++ be_bytes 8 (8 * l).

Fixpoint words (n : nat) (b : bytes) : list Z :=
  match n with
  | O => []
  | S n' => be_word (take 4 b) :: words n' (drop 4 b)
  end.

(** The message schedule: [w] holds W[t-1] ... W[0] (most recent first). *)
Fixpoint schedule (n : nat) (w : list Z) : list Z :=
  match n with
  | O => w
  | S n' =>
      let wt := add32 (add32 (sigma1 (nth 1 w 0)) (nth 6 w 0))
                      (add32 (sigma0 (nth 14 w 0)) (nth 15 w 0)) in
      schedule n' (wt :: w)
  end.

Definition round (st : list Z) (kw : Z * Z) : list Z :=
  match st with
  | [a; b; c; d; e; f; g; h] =>
      let t1 := add32 (add32 (add32 h (Sigma1 e)) (add32 (Ch e f g) (fst kw))) (snd kw) in
      let t2 := add32 (Sigma0 a) (Maj a b c) in
      [add32 t1 t2; a; b; c; add32 d t1; e; f; g]
  | _ => st
  end.

Definition compress (h : list Z) (block : bytes) : list Z :=
  let w := rev (schedule 48 (rev (words 16 block))) in
  let st := fold_left round (combine K w) h in
  zip_with add32 h st.

Fixpoint blocks (n : nat) (h : list Z) (b : bytes) : list Z :=
  match n with
  | O => h
  | S n' => blocks n' (compress h (take 64 b)) (drop 64 b)
  end.

Definition digest (msg : bytes) : bytes :=
  let p := pad msg in
  flat_map (be_bytes 4) (blocks (length p / 64) H0 p).

Definition hex_digit (n : Z) : N :=
  Z.to_N (if n <? 10 then 48 + n else 87 + n).

Definition hexdigest (msg : bytes) : pystr :=
  flat_map (fun b => [hex_digit (b / 16); hex_digit (b mod 16)]) (digest msg).

End SHA256.

Definition hash_password (password : pystr) : result pystr :=
  b ← encode password;
  Ok (SHA256.hexdigest b).

(** ** Text helpers: [str.strip], [str.splitlines], [str.join] *)

Definition newline : pystr := [10%N].

(** [chr(c).isspace()]. *)
Definition isspace (c : N) : bool :=
  ((9 <=? c) && (c <=? 13) || (28 <=? c) && (c <=? 32)
   || (c =? 0x85) || (c =? 0xA0) || (c =? 0x1680)
   || (0x2000 <=? c) && (c <=? 0x200A)
   || (c =? 0x2028) || (c =? 0x2029) || (c =? 0x202F) || (c =? 0x205F)
   || (c =? 0x3000))%N.

Fixpoint lstrip (s : pystr) : pystr :=
  match s with
  | [] => []
  | c :: s' => if isspace c then lstrip s' else s
  end.

Definition rstrip (s : pystr) : pystr := rev (lstrip (rev s)).

Definition strip (s : pystr) : pystr := rstrip (lstrip s).

(** The line boundaries of [str.splitlines]. *)
Definition is_linebreak (c : N) : bool :=
  ((10 <=? c) && (c <=? 13) || (28 <=? c) && (c <=? 30)
   || (c =? 0x85) || (c =? 0x2028) || (c =? 0x2029))%N.

Fixpoint splitlines_from (cur : pystr) (s : pystr) : list pystr :=
  match s with
  | [] => match cur with [] => [] | _ => [cur] end
  | c :: s' =>
      if (c =? 13)%N then
        match s' with
        | c' :: s'' =>
            if (c' =? 10)%N then cur :: splitlines_from [] s''
            else cur :: splitlines_from [] s'
        | [] => cur :: splitlines_from [] s'
        end
      else if is_linebreak c then cur :: splitlines_from [] s'
      else splitlines_from (cur ++ [c]) s'
  end.

Definition splitlines (s : pystr) : list pystr := splitlines_from [] s.

Fixpoint join (sep : pystr) (l : list pystr) : pystr :=
  match l with
  | [] => []
  | [x] => x
  | x :: l' => x ++ sep ++ join sep l'
  end.

(** ** KeyStore *)

(** [Fernet.generate_key()] draws its bytes from the operating system;
    the drawn key is an input here. [open(..., "wb")] on a missing file
    creates it. *)
Definition load_key (fresh_key : bytes) (d : disk) : result (bytes * disk) :=
  try_except_only
    (match secret_key d with
     | Present b => Ok (b, d)
     | Absent => Raise FileNotFoundError
     | Unreadable => Raise PermissionError
     end)
    FileNotFoundError
    (let key := fresh_key in
     Ok (key, {| config_json := config_json d;
                 secret_key := Present key;
                 notes_json := notes_json d |})).

(** ** Cipher: the [cryptography.fernet.Fernet] interface

    [fernet_key_ok key] tells whether [Fernet(key)] accepts the key
    (otherwise it raises [ValueError]); [fernet_encrypt key now iv data] is
    [Fernet(key).encrypt(data)] when the clock reads [now] and the operating
    system draws [iv]; [fernet_decrypt key token] is [Fernet(key).decrypt(token)],
    [None] standing for [InvalidToken]. *)
Class FernetLib := {
  fernet_key_ok : bytes -> bool;
  fernet_encrypt : bytes -> Z -> bytes -> bytes -> bytes;
  fernet_decrypt : bytes -> bytes -> option bytes
}.

Definition is_byte (b : Z) : Prop := 0 <= b < 256.
Definition is_ascii (b : Z) : Prop := 0 <= b < 128.

(** The library's contract: tokens are URL-safe base64 text, and a token
    decrypts under the key that made it. *)
Class FernetLaws (F : FernetLib) := {
  fernet_token_ascii key now iv data :
    fernet_key_ok key = true -> Forall is_byte data ->
    Forall is_ascii (fernet_encrypt key now iv data);
  fernet_decrypt_encrypt key now iv data :
    fernet_key_ok key = true -> Forall is_byte data ->
    fernet_decrypt key (fernet_encrypt key now iv data) = Some data
}.

(** What one call of [Fernet.encrypt] reads from its environment. *)
Record entropy := { clock : Z; iv : bytes }.

(** ** Notes *)

Record note := {
  title : value;
  content : value;
  created : datetime;
  updated : datetime;
  read_only : value
}.

(** The dict literal of the five fields. *)
Definition note_dict (t c cr up ro : value) : gmap pystr value :=
  <[py "title" := t]>
  (<[py "content" := c]>
  (<[py "created" := cr]>
  (<[py "updated" := up]>
  (<[py "read_only" := ro]> ∅)))).

Definition note_to_json (n : note) : value :=
  VDict (note_dict (title n) (content n)
                   (VStr (isoformat (created n))) (VStr (isoformat (updated n)))
                   (read_only n)).

Definition set_notes_json (f : file text) (d : disk) : disk :=
  {| config_json := config_json d; secret_key := secret_key d; notes_json := f |}.

Definition save_notes_to_file (notes : list note) (d : disk) : result disk :=
  let notes_to_save := List.map note_to_json notes in
  f ← open_json_dump (notes_json d) (VList notes_to_save);
  Ok (set_notes_json f d).

(** [for x in v]: the items a loop over [v] visits. *)
Definition iterate (v : value) : result (list value) :=
  match v with
  | VList l => Ok l
  | VDict d => Ok (List.map (fun kv => VStr (fst kv)) (map_to_list d))
  | VStr s => Ok (List.map (fun c => VStr [c]) s)
  | _ => Raise TypeError
  end.

Definition note_of_json (v : value) : result note :=
  t ← getitem v (py "title");
  c ← getitem v (py "content");
  cr ← (s ← getitem v (py "created"); fromisoformat s);
  up ← (s ← getitem v (py "updated"); fromisoformat s);
  ro ← get v (py "read_only") (VBool false);
  Ok {| title := t; content := c; created := cr; updated := up; read_only := ro |}.

Fixpoint notes_of_json (l : list value) : result (list note) :=
  match l with
  | [] => Ok []
  | v :: l' =>
      n ← note_of_json v;
      ns ← notes_of_json l';
      Ok (n :: ns)
  end.

Definition load_notes_from_file (d : disk) : result (list note) :=
  if negb (exists_ (notes_json d)) then Ok []
  else
    loaded ← open_json_load (notes_json d);
    items ← iterate loaded;
    notes_of_json items.

(** ** The application object *)

Record NotesApp := {
  notes : list note;
  current_note_index : option nat;
  key : bytes;
  config : gmap pystr value;
  last_password_entry : option datetime;
  (* widget state read and written by the handlers *)
  text_edit : pystr;
  text_edit_read_only : bool;
  prevent_edit_checked : bool;
  password_toggle_checked : bool
}.

Definition set_notes (ns : list note) (a : NotesApp) : NotesApp :=
  {| notes := ns; current_note_index := current_note_index a; key := key a;
     config := config a; last_password_entry := last_password_entry a;
     text_edit := text_edit a; text_edit_read_only := text_edit_read_only a;
     prevent_edit_checked := prevent_edit_checked a;
     password_toggle_checked := password_toggle_checked a |}.

Definition set_config (c : gmap pystr value) (a : NotesApp) : NotesApp :=
  {| notes := notes a; current_note_index := current_note_index a; key := key a;
     config := c; last_password_entry := last_password_entry a;
     text_edit := text_edit a; text_edit_read_only := text_edit_read_only a;
     prevent_edit_checked := prevent_edit_checked a;
     password_toggle_checked := password_toggle_checked a |}.

Definition set_last_password_entry (t : option datetime) (a : NotesApp) : NotesApp :=
  {| notes := notes a; current_note_index := current_note_index a; key := key a;
     config := config a; last_password_entry := t;
     text_edit := text_edit a; text_edit_read_only := text_edit_read_only a;
     prevent_edit_checked := prevent_edit_checked a;
     password_toggle_checked := password_toggle_checked a |}.

Definition set_password_toggle (b : bool) (a : NotesApp) : NotesApp :=
  {| notes := notes a; current_note_index := current_note_index a; key := key a;
     config := config a; last_password_entry := last_password_entry a;
     text_edit := text_edit a; text_edit_read_only := text_edit_read_only a;
     prevent_edit_checked := prevent_edit_checked a;
     password_toggle_checked := b |}.

Definition set_current_note_index (idx : option nat) (a : NotesApp) : NotesApp :=
  {| notes := notes a; current_note_index := idx; key := key a;
     config := config a; last_password_entry := last_password_entry a;
     text_edit := text_edit a; text_edit_read_only := text_edit_read_only a;
     prevent_edit_checked := prevent_edit_checked a;
     password_toggle_checked := password_toggle_checked a |}.

(** [text_edit] is what [toPlainText()] returns; [setPlainText] and
    [clear] are taken to store their text as it is. *)
Definition set_text (txt : pystr) (a : NotesApp) : NotesApp :=
  {| notes := notes a; current_note_index := current_note_index a; key := key a;
     config := config a; last_password_entry := last_password_entry a;
     text_edit := txt; text_edit_read_only := text_edit_read_only a;
     prevent_edit_checked := prevent_edit_checked a;
     password_toggle_checked := password_toggle_checked a |}.

Definition set_text_read_only (ro : bool) (a : NotesApp) : NotesApp :=
  {| notes := notes a; current_note_index := current_note_index a; key := key a;
     config := config a; last_password_entry := last_password_entry a;
     text_edit := text_edit a; text_edit_read_only := ro;
     prevent_edit_checked := prevent_edit_checked a;
     password_toggle_checked := password_toggle_checked a |}.

Definition set_prevent_toggle (b : bool) (a : NotesApp) : NotesApp :=
  {| notes := notes a; current_note_index := current_note_index a; key := key a;
     config := config a; last_password_entry := last_password_entry a;
     text_edit := text_edit a; text_edit_read_only := text_edit_read_only a;
     prevent_edit_checked := b;
     password_toggle_checked := password_toggle_checked a |}.

(** [NotesApp.__init__]: its assignments, and the first statement of
    [init_ui] that reads the configuration, [self.config.get(...)], which
    fails when the configuration is not a dict. What [init_ui] does after
    that (building the widgets and setting the toggles from the
    configuration) is not part of this function. *)
Definition NotesApp_init (fresh_key : bytes) (d : disk) : result (NotesApp * disk) :=
  ns ← load_notes_from_file d;
  '(k, d') ← load_key fresh_key d;
  cfg ← load_config d';
  match cfg with
  | VDict c =>
      Ok ({| notes := ns; current_note_index := None; key := k; config := c;
             last_password_entry := None;
             text_edit := []; text_edit_read_only := false;
             prevent_edit_checked := false;
             password_toggle_checked := false |}, d')
  | _ => Raise AttributeError
  end.

(** ** Dialogs and message boxes *)

(** How the user leaves a [PasswordDialog]: [exec_()] and [get_password()]. *)
Record dialog_answer := { accepted : bool; entered : pystr }.

Definition cancelled : dialog_answer := {| accepted := false; entered := [] |}.

Inductive ui_event :=
| Prompt (title : string)
| Warning (title : string) (message : string)
| Information (title : string) (message : string).

(** ** AccessGate *)

(** [elapsed < timeout] where [elapsed] is [us] microseconds as seconds:
    [timedelta.total_seconds()] is the quotient [us / 10**6] rounded to a
    float, taken here as the exact quotient. Against an integer timeout
    below 2**33 seconds the rounded quotient compares as the exact one does,
    since floats of that size are less than a microsecond apart. *)
Definition elapsed_lt (us : Z) (timeout : value) : result bool :=
  match timeout with
  | VInt z => Ok (us <? z * 1000000)
  | VBool b => Ok (us <? (if b then 1 else 0) * 1000000)
  | VFloat q => Ok (negb (Qle_bool q (us # 1000000)))
  | _ => Raise TypeError
  end.

Definition is_password_valid (a : NotesApp) (now : datetime) : result bool :=
  if negb (truthy (dict_get (config a) (py "password_protected") (VBool false)))
  then Ok true
  else
    match last_password_entry a with
    | Some last =>
        let elapsed := to_microseconds now - to_microseconds last in
        lt ← elapsed_lt elapsed (dict_get (config a) (py "password_timeout") (VInt 60));
        if lt : bool then Ok true else Ok false
    | None => Ok false
    end.

(** [now] is the clock when the validity is queried, [now'] the clock
    after the dialog has been answered. *)
Definition check_password (a : NotesApp) (now now' : datetime)
    (ans : dialog_answer) : result (bool * NotesApp * list ui_event) :=
  valid ← is_password_valid a now;
  if valid : bool then Ok (true, a, [])
  else if accepted ans then
    let pwd := entered ans in
    h ← hash_password pwd;
    if str_eq_value h (dict_get (config a) (py "password_hash") (VStr []))
    then Ok (true, set_last_password_entry (Some now') a,
             [Prompt "Password Required"])
    else Ok (false, a,
             [Prompt "Password Required";
              Warning "Incorrect Password" "The password you entered is incorrect."])
  else Ok (false, a, [Prompt "Password Required"]).

Definition save_app_config (a : NotesApp) (d : disk) : result disk :=
  save_config (VDict (config a)) d.

(** The slot [onPasswordProtectionToggled(False)]. *)
Definition protection_off (a : NotesApp) (d : disk) : result (NotesApp * disk) :=
  let a' := set_config (<[py "password_protected" := VBool false]> (config a)) a in
  d' ← save_app_config a' d;
  Ok (a', d').

(** [passwordProtectionToggle.setChecked(False)]: a change of the button's
    state emits [toggled(False)], which runs the slot again. *)
Definition toggle_setChecked_False (a : NotesApp) (d : disk)
    : result (NotesApp * disk) :=
  if password_toggle_checked a
  then protection_off (set_password_toggle false a) d
  else Ok (a, d).

Definition protection_on (a : NotesApp) (d : disk) : result (NotesApp * disk) :=
  let a' := set_config (<[py "password_protected" := VBool true]> (config a)) a in
  d' ← save_app_config a' d;
  Ok (a', d').

Definition onPasswordProtectionToggled (checked : bool) (a : NotesApp) (d : disk)
    (ans confirm : dialog_answer) : result (NotesApp * disk * list ui_event) :=
  if checked then
    if negb (truthy (dict_get (config a) (py "password_hash") VNone)) then
      if accepted ans then
        let pwd := entered ans in
        match pwd with
        | [] =>
            '(a', d') ← toggle_setChecked_False a d;
            Ok (a', d', [Prompt "Set Password"])
        | _ =>
            if accepted confirm then
              if negb (pystr_eqb pwd (entered confirm)) then
                '(a', d') ← toggle_setChecked_False a d;
                Ok (a', d', [Prompt "Set Password"; Prompt "Confirm Password";
                             Warning "Password Mismatch" "The passwords do not match."])
              else
                h ← hash_password pwd;
                '(a', d') ← protection_on
                              (set_config (<[py "password_hash" := VStr h]> (config a)) a) d;
                Ok (a', d', [Prompt "Set Password"; Prompt "Confirm Password"])
            else
              '(a', d') ← protection_on a d;
              Ok (a', d', [Prompt "Set Password"; Prompt "Confirm Password"])
        end
      else
        '(a', d') ← toggle_setChecked_False a d;
        Ok (a', d', [Prompt "Set Password"])
    else
      '(a', d') ← protection_on a d;
      Ok (a', d', [])
  else
    '(a', d') ← protection_off a d;
    Ok (a', d', []).

(** [passwordProtectionToggle.setChecked(True)]: as above, with
    [toggled(True)]; the nested slot finds no dialog to answer. *)
Definition toggle_setChecked_True (a : NotesApp) (d : disk)
    : result (NotesApp * disk * list ui_event) :=
  if password_toggle_checked a then Ok (a, d, [])
  else onPasswordProtectionToggled true (set_password_toggle true a) d
         cancelled cancelled.

Definition onChangePasswordClicked (a : NotesApp) (d : disk)
    (old new confirm : dialog_answer) : result (NotesApp * disk * list ui_event) :=
  let verify :=
    if truthy (dict_get (config a) (py "password_hash") VNone) then
      if negb (accepted old) then Ok (false, [Prompt "Verify Password"])
      else
        h ← hash_password (entered old);
        if negb (str_eq_value h (dict_get (config a) (py "password_hash") VNone))
        then Ok (false, [Prompt "Verify Password";
                         Warning "Incorrect Password" "Current password is incorrect."])
        else Ok (true, [Prompt "Verify Password"])
    else Ok (true, []) in
  '(go_on, ev) ← verify;
  if negb go_on then Ok (a, d, ev)
  else
    let ev := ev ++ [Prompt "New Password"] in
    if negb (accepted new) || negb (truthy (VStr (entered new))) then Ok (a, d, ev)
    else
      let ev := ev ++ [Prompt "Confirm Password"] in
      if negb (accepted confirm) || negb (pystr_eqb (entered new) (entered confirm))
      then Ok (a, d, ev ++ [Warning "Password Mismatch" "The passwords do not match."])
      else
        h ← hash_password (entered new);
        let a1 := set_config (<[py "password_hash" := VStr h]> (config a)) a in
        let a2 := set_config (<[py "password_protected" := VBool true]> (config a1)) a1 in
        '(a3, d3, ev3) ← toggle_setChecked_True a2 d;
        d4 ← save_app_config a3 d3;
        Ok (a3, d4, ev ++ ev3
                    ++ [Information "Password Changed" "Your password has been updated."]).

Definition onTimeoutChanged (timeout : Z) (a : NotesApp) (d : disk)
    : result (NotesApp * disk) :=
  let a' := set_config (<[py "password_timeout" := VInt timeout]> (config a)) a in
  d' ← save_app_config a' d;
  Ok (a', d').

(** ** The editor *)

Section Cipher.
Context {F : FernetLib}.

Definition encrypt_text (a : NotesApp) (e : entropy) (text : pystr) : result pystr :=
  if negb (fernet_key_ok (key a)) then Raise ValueError
  else
    data ← encode text;
    decode (fernet_encrypt (key a) (clock e) (iv e) data).

Definition decrypt_text (a : NotesApp) (token : pystr) : result pystr :=
  if negb (fernet_key_ok (key a)) then Raise ValueError
  else
    t ← encode token;
    match fernet_decrypt (key a) t with
    | Some data => decode data
    | None => Raise InvalidToken
    end.

(** [self.decrypt_text(v) if v else ""] for a stored field [v]. *)
Definition decrypt_field (a : NotesApp) (v : value) : result pystr :=
  if truthy v then
    match v with
    | VStr token => decrypt_text a token
    | _ => Raise AttributeError
    end
  else Ok [].

(** The slot [updatePreventEdit(checked)]. *)
Definition updatePreventEdit (checked : bool) (a : NotesApp) (d : disk)
    : result (NotesApp * disk) :=
  let a1 := set_text_read_only checked a in
  match current_note_index a1 with
  | Some i =>
      match notes a1 !! i with
      | None => Raise IndexError
      | Some n =>
          let n' := {| title := title n; content := content n; created := created n;
                       updated := updated n; read_only := VBool checked |} in
          let a2 := set_notes (<[i := n']> (notes a1)) a1 in
          d' ← save_notes_to_file (notes a2) d;
          Ok (a2, d')
      end
  | None => Ok (a1, d)
  end.

(** [preventEditToggle.setChecked(b)]: a change of the button's state
    emits [toggled(b)], which runs the slot. *)
Definition prevent_toggle_setChecked (b : bool) (a : NotesApp) (d : disk)
    : result (NotesApp * disk) :=
  if Bool.eqb (prevent_edit_checked a) b then Ok (a, d)
  else updatePreventEdit b (set_prevent_toggle b a) d.

Definition show_notepad_for_new (a : NotesApp) (d : disk) (now now' : datetime)
    (ans : dialog_answer) : result (NotesApp * disk * list ui_event) :=
  '(ok, a1, ev) ← check_password a now now' ans;
  if negb ok then Ok (a1, d, ev)
  else
    let a2 := set_current_note_index None a1 in
    let a3 := set_text [] a2 in
    let a4 := set_text_read_only false a3 in
    '(a5, d5) ← prevent_toggle_setChecked false a4 d;
    Ok (a5, d5, ev).

Definition show_notepad_for_edit (index : nat) (a : NotesApp) (d : disk)
    (now now' : datetime) (ans : dialog_answer)
    : result (NotesApp * disk * list ui_event) :=
  '(ok, a1, ev) ← check_password a now now' ans;
  if negb ok then Ok (a1, d, ev)
  else
    match notes a1 !! index with
    | None => Raise IndexError
    | Some n =>
        let a2 := set_current_note_index (Some index) a1 in
        '(t, c) ← try_except
                    (t ← decrypt_field a2 (title n);
                     c ← decrypt_field a2 (content n);
                     Ok (t, c))
                    (Ok ([], []));
        let combined_text :=
          match t with [] => c | _ => t ++ newline ++ c end in
        let a3 := set_text combined_text a2 in
        '(a5, d5) ←
          (if truthy (read_only n)
           then prevent_toggle_setChecked true (set_text_read_only true a3) d
           else prevent_toggle_setChecked false (set_text_read_only false a3) d);
        Ok (a5, d5, ev)
    end.

(** [now] is [datetime.datetime.now()]; [e1] and [e2] feed the two calls
    of [encrypt_text]. *)
Definition close_notepad (a : NotesApp) (d : disk) (now : datetime)
    (e1 e2 : entropy) : result (NotesApp * disk) :=
  if text_edit_read_only a then Ok (a, d)
  else
    let full_text := strip (text_edit a) in
    a' ←
      (if truthy (VStr full_text) then
         let lines := splitlines full_text in
         title_text ← match lines with l0 :: _ => Ok l0 | [] => Raise IndexError end;
         let content_text :=
           if (1 <? length lines)%nat
           then strip (join (newline) (drop 1 lines))
           else [] in
         encrypted_title ← encrypt_text a e1 title_text;
         encrypted_content ← encrypt_text a e2 content_text;
         match current_note_index a with
         | None =>
             let new_note := {| title := VStr encrypted_title;
                                content := VStr encrypted_content;
                                created := now; updated := now;
                                read_only := VBool false |} in
             Ok (set_notes (notes a ++ [new_note]) a)
         | Some i =>
             match notes a !! i with
             | None => Raise IndexError
             | Some n =>
                 let n' := {| title := VStr encrypted_title;
                              content := VStr encrypted_content;
                              created := created n; updated := now;
                              read_only := read_only n |} in
                 Ok (set_notes (<[i := n']> (notes a)) a)
             end
         end
       else Ok a);
    d' ← save_notes_to_file (notes a') d;
    Ok (a', d').

End Cipher.

(** ** Auxiliary notions used by the statements *)

(** A code point that is a Unicode scalar value: what [str.encode()] accepts. *)
Definition is_scalar (c : N) : bool :=
  (Z.of_N c <=? 0x10FFFF) && negb (is_surrogate (Z.of_N c)).

(** [config["password_protected"]] as [is_password_valid] reads it. *)
Definition protected (a : NotesApp) : bool :=
  truthy (dict_get (config a) (py "password_protected") (VBool false)).

(** The stored hash as [check_password] reads it. *)
Definition stored_hash (a : NotesApp) : value :=
  dict_get (config a) (py "password_hash") (VStr []).

(** The timeout as [is_password_valid] reads it. *)
Definition configured_timeout (a : NotesApp) : value :=
  dict_get (config a) (py "password_timeout") (VInt 60).

(** A note whose timestamps satisfy the invariant of [datetime]. *)
Definition valid_note (n : note) : Prop :=
  valid_datetime (created n) = true /\ valid_datetime (updated n) = true.

(** A record of the notes document that [load_notes_from_file] cannot
    convert. *)
Definition malformed (v : value) : Prop := exists e, note_of_json v = Raise e.

(** ** A small cipher with the Fernet interface

    Keys are the 44 characters of a base64-encoded 32-byte key; a token is
    the initialisation vector and the data, a letter per half-byte. It stands
    in for the library wherever a statement is evaluated on concrete data. *)
Module Nibble.

Definition letters (b : Z) : bytes := [97 + b / 16 mod 16; 97 + b mod 16].

Definition pack (data : bytes) : bytes := flat_map letters data.

Fixpoint unpack_pairs (n : nat) (t : bytes) : option bytes :=
  match n with
  | O => match t with [] => Some [] | _ => None end
  | S n' =>
      match t with
      | hi :: lo :: t' =>
          if (97 <=? hi) && (hi <? 113) && (97 <=? lo) && (lo <? 113)
          then cons ((hi - 97) * 16 + (lo - 97)) <$> unpack_pairs n' t'
          else None
      | _ => None
      end
  end.

Definition unpack (t : bytes) : option bytes :=
  if Nat.even (length t) then unpack_pairs (length t / 2) t else None.

Definition key_ok (key : bytes) : bool := (length key =? 44)%nat.

Definition block (iv : bytes) : bytes := take 16 (iv ++ repeat 0 16).

Definition encrypt (key : bytes) (now : Z) (iv data : bytes) : bytes :=
  pack (block iv) ++ pack data.

Definition decrypt (key token : bytes) : option bytes :=
  if key_ok key then unpack (drop 32 token) else None.

End Nibble.

#[export] Instance nibble_fernet : FernetLib := {|
  fernet_key_ok := Nibble.key_ok;
  fernet_encrypt := Nibble.encrypt;
  fernet_decrypt := Nibble.decrypt
|}.

(** *** Concrete data for the examples *)

Definition sample_key : bytes := repeat 65 43 ++ [61].

Definition sample_entropy : entropy := {| clock := 1700000000; iv := repeat 7 16 |}.

Definition empty_disk : disk :=
  {| config_json := Absent; secret_key := Absent; notes_json := Absent |}.

Definition noon : datetime :=
  {| year := 2024; month := 2; day := 29; hour := 12; minute := 0; second := 0;
     microsecond := 0 |}.

Definition after_noon (s us : Z) : datetime :=
  {| year := 2024; month := 2; day := 29; hour := 12; minute := s / 60;
     second := s mod 60; microsecond := us |}.

Definition sample_app (cfg : gmap pystr value) (last : option datetime) : NotesApp :=
  {| notes := []; current_note_index := None; key := sample_key; config := cfg;
     last_password_entry := last; text_edit := []; text_edit_read_only := false;
     prevent_edit_checked := false; password_toggle_checked := false |}.

Definition sample_note : note :=
  {| title := VStr (py "dGl0bGU="); content := VStr (py "Ym9keQ==");
     created := noon; updated := after_noon 75 250000; read_only := VBool true |}.

Definition protected_config (h : pystr) (timeout : Z) : gmap pystr value :=
  <[py "password_protected" := VBool true]>
  (<[py "password_hash" := VStr h]>
  (<[py "password_timeout" := VInt timeout]> ∅)).

Definition secret_hash : pystr :=
  Eval vm_compute in SHA256.hexdigest (bytes_lit "secret").


(** *** More data for the examples *)

Definition keys_document : value :=
  VList [VStr (py "password_protected"); VStr (py "password_hash");
         VStr (py "password_timeout")].

Definition title_only : value := VDict {[py "title" := VStr (py "dGl0bGU=")]}.

Definition one_bad_record : disk :=
  {| config_json := Absent; secret_key := Absent;
     notes_json := Present (Parses (VList [title_only; note_to_json sample_note])) |}.

Definition blank_editor : NotesApp :=
  {| notes := [sample_note]; current_note_index := Some 0%nat; key := sample_key;
     config := default_config; last_password_entry := None;
     text_edit := py "  " ++ newline ++ py " "; text_edit_read_only := false;
     prevent_edit_checked := false; password_toggle_checked := false |}.

Definition new_hash : pystr :=
  Eval vm_compute in SHA256.hexdigest (bytes_lit "tighter").

Definition corrupt_key_app : NotesApp :=
  {| notes := []; current_note_index := None; key := bytes_lit "corrupt";
     config := default_config; last_password_entry := None; text_edit := [];
     text_edit_read_only := false; prevent_edit_checked := false;
     password_toggle_checked := false |}.


(** * Proofs *)

(** Case analysis on every integer comparison of the goal. *)
Ltac split_tests :=
  repeat match goal with
  | |- context [Z.leb ?a ?b] =>
      destruct (Z.leb_spec a b); try (exfalso; Z.div_mod_to_equations; lia)
  | |- context [Z.ltb ?a ?b] =>
      destruct (Z.ltb_spec a b); try (exfalso; Z.div_mod_to_equations; lia)
  end.

(** ** SHA-256 test vectors (FIPS 180-4, appendix examples) *)

Example sha256_abc :
  SHA256.hexdigest (bytes_lit "abc")
  = py "ba7816bf8f01cfea414140de5dae2223b00361a396177a9cb410ff61f20015ad".
Proof. vm_compute. reflexivity. Qed.

Example sha256_empty :
  SHA256.hexdigest []
  = py "e3b0c44298fc1c149afbf4c8996fb92427ae41e4649b934ca495991b7852b855".
Proof. vm_compute. reflexivity. Qed.

Example sha256_two_blocks :
  SHA256.hexdigest (bytes_lit "abcdbcdecdefdefgefghfghighijhijkijkljklmklmnlmnomnopnopq")
  = py "248d6a61d20638b8e5c026930c3e6039a33ce45964ff2167f6ecedd419db06c1".
Proof. vm_compute. reflexivity. Qed.
(** ** [isoformat] and [fromisoformat] *)

Lemma ndigits_aux_le fuel : forall w n,
  0 <= n < 10 ^ Z.of_nat (S w) -> (ndigits_aux fuel n <= S w)%nat.
Proof.
  induction fuel as [|fuel IH]; intros w n Hn; simpl; [lia|].
  destruct (Z.ltb_spec n 10); [lia|].
  destruct w as [|w].
  - change (10 ^ Z.of_nat 1) with 10 in Hn. lia.
  - apply le_n_S, IH.
    rewrite Nat2Z.inj_succ, Z.pow_succ_r in Hn by lia.
    split; [apply Z.div_pos; lia|].
    apply Z.div_lt_upper_bound; lia.
Qed.

Lemma fmt_d_digits w n :
  0 <= n < 10 ^ Z.of_nat (S w) -> fmt_d (S w) n = digits (S w) n.
Proof.
  intros Hn. unfold fmt_d.
  rewrite Nat.max_l; [done|]. by apply ndigits_aux_le.
Qed.

Lemma digit_val_char n : digit_val (digit_char n) = Some (n mod 10).
Proof.
  unfold digit_val, digit_char.
  pose proof (Z.mod_pos_bound n 10 ltac:(lia)) as Hm.
  destruct (N.leb_spec 48 (Z.to_N (48 + n mod 10))); [|lia].
  destruct (N.leb_spec (Z.to_N (48 + n mod 10)) 57); [|lia].
  simpl. f_equal. lia.
Qed.

Lemma parse_int_acc_app a b : forall acc,
  parse_int_acc acc (a ++ b) =
  match parse_int_acc acc a with
  | Some acc' => parse_int_acc acc' b
  | None => None
  end.
Proof.
  induction a as [|c a IH]; intros acc; simpl; [done|].
  destruct (digit_val c); [apply IH|done].
Qed.

Lemma length_digits w : forall n, length (digits w n) = w.
Proof.
  induction w as [|w IH]; intros n; simpl; [done|].
  rewrite length_app, IH. simpl. lia.
Qed.

Lemma parse_int_acc_digits w : forall n acc,
  0 <= n < 10 ^ Z.of_nat w ->
  parse_int_acc acc (digits w n) = Some (acc * 10 ^ Z.of_nat w + n).
Proof.
  induction w as [|w IH]; intros n acc Hn.
  - simpl in *. f_equal. lia.
  - rewrite Nat2Z.inj_succ, Z.pow_succ_r in * by lia.
    simpl. rewrite parse_int_acc_app, IH.
    + simpl. rewrite digit_val_char. f_equal.
      pose proof (Z.div_mod n 10 ltac:(lia)). lia.
    + split; [apply Z.div_pos; lia|]. apply Z.div_lt_upper_bound; lia.
Qed.

Lemma parse_int_fmt_d w n :
  0 <= n < 10 ^ Z.of_nat (S w) -> parse_int (S w) (fmt_d (S w) n) = Some n.
Proof.
  intros Hn. rewrite fmt_d_digits by done.
  unfold parse_int. rewrite length_digits, Nat.eqb_refl.
  rewrite parse_int_acc_digits by done. f_equal; lia.
Qed.

Lemma length_fmt_d w n :
  0 <= n < 10 ^ Z.of_nat (S w) -> length (fmt_d (S w) n) = S w.
Proof. intros Hn. rewrite fmt_d_digits by done. apply length_digits. Qed.

Lemma valid_datetime_bounds d :
  valid_datetime d = true ->
  1 <= year d <= 9999 /\ 1 <= month d <= 12 /\
  1 <= day d <= days_in_month (year d) (month d) /\
  0 <= hour d <= 23 /\ 0 <= minute d <= 59 /\ 0 <= second d <= 59 /\
  0 <= microsecond d <= 999999.
Proof.
  unfold valid_datetime. rewrite !andb_true_iff, !Z.leb_le. tauto.
Qed.

Lemma days_in_month_le y m : days_in_month y m <= 31.
Proof.
  unfold days_in_month.
  repeat match goal with |- context [if ?b then _ else _] => destruct b end; lia.
Qed.

(** A string split into a prefix of known length and the rest. *)
Lemma slice_0_app (n : nat) (a b : pystr) : length a = n -> slice 0 n (a ++ b) = a.
Proof.
  intros <-. unfold slice. rewrite Nat.sub_0_r. apply take_app_length. Qed.

Lemma drop_app_len (n : nat) (a b : pystr) : length a = n -> drop n (a ++ b) = b.
Proof. intros <-. by rewrite drop_app_length. Qed.


Lemma parse_int_digits w n :
  0 <= n < 10 ^ Z.of_nat w -> parse_int w (digits w n) = Some n.
Proof.
  intros Hn. unfold parse_int. rewrite length_digits, Nat.eqb_refl.
  rewrite parse_int_acc_digits by done. f_equal; lia.
Qed.

Lemma parse_int_2 n :
  0 <= n < 100 -> parse_int 2 [digit_char (n / 10); digit_char n] = Some n.
Proof. intros Hn. by apply (parse_int_digits 2). Qed.

Lemma parse_int_4 n :
  0 <= n < 10000 ->
  parse_int 4 [digit_char (n / 10 / 10 / 10); digit_char (n / 10 / 10);
               digit_char (n / 10); digit_char n] = Some n.
Proof. intros Hn. by apply (parse_int_digits 4). Qed.

#[local] Arguments parse_int : simpl never.
#[local] Arguments digit_char : simpl never.

Ltac parse_step :=
  repeat first [ rewrite parse_int_4 by lia
               | rewrite parse_int_2 by lia
               | case_guard; [|done]
               | progress simpl ].

Lemma parse_isoformat_date_digits y m d rest :
  0 <= y < 10000 -> 0 <= m < 100 -> 0 <= d < 100 ->
  parse_isoformat_date
    (slice 0 10 (digits 4 y ++ py "-" ++ digits 2 m ++ py "-" ++ digits 2 d ++ rest))
  = Some (y, m, d).
Proof.
  intros Hy Hm Hd. unfold parse_isoformat_date, slice. by parse_step.
Qed.

Lemma parse_fraction_digits us :
  0 <= us < 1000000 ->
  parse_fraction (if us =? 0 then [] else py "." ++ digits 6 us) = Some us.
Proof.
  intros Hus. destruct (Z.eqb_spec us 0) as [->|Hne]; [done|].
  unfold parse_fraction. cbn [py list_ascii_of_string List.map app].
  change (N_of_ascii "." =? 46)%N with true. cbv iota.
  rewrite length_digits. cbn [Nat.eqb].
  apply parse_int_digits. simpl; lia.
Qed.

Lemma parse_hh_mm_ss_ff_digits h mi s us frac :
  0 <= h < 100 -> 0 <= mi < 100 -> 0 <= s < 100 ->
  parse_fraction frac = Some us ->
  parse_hh_mm_ss_ff
    (digits 2 h ++ py ":" ++ digits 2 mi ++ py ":" ++ digits 2 s ++ frac)
  = Some (h, mi, s, us).
Proof.
  intros Hh Hmi Hs Hus. unfold parse_hh_mm_ss_ff, slice. parse_step.
  by rewrite drop_0, Hus.
Qed.

Theorem fromisoformat_isoformat d :
  valid_datetime d = true -> fromisoformat_str (isoformat d) = Ok d.
Proof.
  intros Hv. pose proof (valid_datetime_bounds d Hv) as (Hy & Hmo & Hd & Hh & Hmi & Hs & Hus).
  pose proof (days_in_month_le (year d) (month d)) as Hdim.
  unfold isoformat.
  rewrite (fmt_d_digits 3), (fmt_d_digits 1 (month d)), (fmt_d_digits 1 (day d)),
    (fmt_d_digits 1 (hour d)), (fmt_d_digits 1 (minute d)), (fmt_d_digits 1 (second d))
    by (simpl; lia).
  replace (if microsecond d =? 0 then [] else py "." ++ fmt_d 6 (microsecond d))
    with (if microsecond d =? 0 then [] else py "." ++ digits 6 (microsecond d))
    by (destruct (microsecond d =? 0); [done|]; by rewrite (fmt_d_digits 5) by (simpl; lia)).
  unfold fromisoformat_str.
  rewrite parse_isoformat_date_digits by lia.
  set (t := digits 2 (hour d) ++ _).
  replace (drop 11 _) with t.
  2:{ subst t. cbn [digits app py list_ascii_of_string List.map drop]. done. }
  assert (Ht : parse_hh_mm_ss_ff t = Some (hour d, minute d, second d, microsecond d))
    by (apply parse_hh_mm_ss_ff_digits; [lia..|apply parse_fraction_digits; lia]).
  rewrite Ht.
  replace t with (digit_char (hour d / 10) :: drop 1 t) by (subst t; done).
  unfold mk_datetime. destruct d; simpl in *. by rewrite Hv.
Qed.

(** ** UTF-8 round trips *)

Lemma utf8_decode_encode_char (c : Z) (b r : bytes) :
  utf8_encode_char c = Some b ->
  utf8_decode (b ++ r) = cons (Z.to_N c) <$> utf8_decode r.
Proof.
  unfold utf8_encode_char, is_surrogate.
  destruct (Z.ltb_spec c 0); [done|].
  destruct (Z.ltb_spec c 0x80).
  { intros [= <-]. simpl. split_tests. done. }
  destruct (Z.ltb_spec c 0x800).
  { intros [= <-]. cbn [app utf8_decode]. unfold is_cont. split_tests.
    cbn [andb]. do 2 f_equal. Z.div_mod_to_equations; lia. }
  destruct (Z.leb_spec 0xD800 c), (Z.leb_spec c 0xDFFF); cbn [andb]; try done.
  all: destruct (Z.ltb_spec c 0x10000).
  all: try (intros [= <-]; cbn [app utf8_decode]; unfold is_cont, is_surrogate;
            split_tests; cbn [andb negb]; do 2 f_equal; Z.div_mod_to_equations; lia).
  all: destruct (Z.leb_spec c 0x10FFFF); try done.
  all: intros [= <-]; cbn [app utf8_decode]; unfold is_cont, is_surrogate;
       split_tests; cbn [andb negb]; do 2 f_equal; Z.div_mod_to_equations; lia.
Qed.

Lemma utf8_decode_encode (s : pystr) (b : bytes) :
  utf8_encode s = Some b -> utf8_decode b = Some s.
Proof.
  revert b. induction s as [|c s IH]; intros b; simpl.
  - by intros [= <-].
  - destruct (utf8_encode_char (Z.of_N c)) as [bc|] eqn:Hc; [|done].
    destruct (utf8_encode s) as [bs|]; [|done].
    simpl. intros [= <-].
    rewrite (utf8_decode_encode_char _ _ _ Hc), (IH bs eq_refl).
    simpl. by rewrite N2Z.id.
Qed.

Lemma utf8_encode_char_scalar (c : N) :
  is_scalar c = true -> is_Some (utf8_encode_char (Z.of_N c)).
Proof.
  unfold is_scalar, utf8_encode_char. intros [H1 H2]%andb_true_iff.
  apply Z.leb_le in H1. apply negb_true_iff in H2. rewrite H2.
  repeat match goal with
         | |- context [Z.ltb ?a ?b] => destruct (Z.ltb_spec a b); try done
         | |- context [Z.leb ?a ?b] => destruct (Z.leb_spec a b); try done
         end; lia.
Qed.

Lemma utf8_encode_scalar (s : pystr) :
  Forall (fun c => is_scalar c = true) s -> is_Some (utf8_encode s).
Proof.
  induction 1 as [|c s Hc _ [bs IH]]; simpl; [done|].
  destruct (utf8_encode_char_scalar c Hc) as [bc ->]. rewrite IH. done.
Qed.

Lemma utf8_encode_char_bytes (c : Z) (b : bytes) :
  utf8_encode_char c = Some b -> Forall is_byte b.
Proof.
  unfold utf8_encode_char, is_surrogate, is_byte.
  repeat match goal with
         | |- context [Z.ltb ?a ?b] => destruct (Z.ltb_spec a b)
         | |- context [Z.leb ?a ?b] => destruct (Z.leb_spec a b)
         end; cbn [andb]; try done; intros [= <-];
  repeat constructor; Z.div_mod_to_equations; lia.
Qed.

Lemma utf8_encode_bytes (s : pystr) (b : bytes) :
  utf8_encode s = Some b -> Forall is_byte b.
Proof.
  revert b. induction s as [|c s IH]; intros b; simpl.
  - intros [= <-]. constructor.
  - destruct (utf8_encode_char (Z.of_N c)) as [bc|] eqn:Hc; [|done].
    destruct (utf8_encode s) as [bs|]; [|done].
    simpl. intros [= <-]. apply Forall_app. split; [by eapply utf8_encode_char_bytes|by apply IH].
Qed.

(** ASCII bytes decode to the same numbers, and encode back. *)
Lemma utf8_decode_ascii (t : bytes) :
  Forall is_ascii t -> utf8_decode t = Some (List.map Z.to_N t).
Proof.
  induction 1 as [|b t Hb _ IH]; [done|].
  unfold is_ascii in Hb. simpl.
  destruct (Z.leb_spec 0 b); [|lia]. destruct (Z.ltb_spec b 128); [|lia].
  simpl. by rewrite IH.
Qed.

Lemma utf8_encode_ascii (t : bytes) :
  Forall is_ascii t -> utf8_encode (List.map Z.to_N t) = Some t.
Proof.
  induction 1 as [|b t Hb _ IH]; [done|].
  unfold is_ascii in Hb. simpl. rewrite IH. unfold utf8_encode_char.
  rewrite Z2N.id by lia.
  destruct (Z.ltb_spec b 0); [lia|]. destruct (Z.ltb_spec b 128); [|lia]. done.
Qed.

(** ** The stand-in cipher keeps the library's contract *)

Lemma nibble_letters_ascii (b : Z) : Forall is_ascii (Nibble.letters b).
Proof.
  unfold Nibble.letters, is_ascii. repeat constructor; Z.div_mod_to_equations; lia.
Qed.

Lemma nibble_pack_ascii (data : bytes) : Forall is_ascii (Nibble.pack data).
Proof.
  induction data as [|b data IH]; [constructor|].
  apply Forall_app. split; [apply nibble_letters_ascii|exact IH].
Qed.

Lemma nibble_pack_length (data : bytes) :
  length (Nibble.pack data) = (2 * length data)%nat.
Proof. induction data as [|b data IH]; simpl; [done|]. rewrite IH. lia. Qed.

Lemma nibble_unpack_pairs_pack (data : bytes) :
  Forall is_byte data ->
  Nibble.unpack_pairs (length data) (Nibble.pack data) = Some data.
Proof.
  induction 1 as [|b data Hb _ IH]; [done|].
  unfold is_byte in Hb. cbn [length Nibble.pack flat_map Nibble.letters app Nibble.unpack_pairs].
  fold (Nibble.pack data). rewrite IH.
  split_tests. cbn [andb fmap option_fmap option_map]. do 2 f_equal.
  Z.div_mod_to_equations; lia.
Qed.

Lemma nibble_unpack_pack (data : bytes) :
  Forall is_byte data -> Nibble.unpack (Nibble.pack data) = Some data.
Proof.
  intros Hd. unfold Nibble.unpack. rewrite nibble_pack_length.
  replace (Nat.even (2 * length data)) with true
    by (symmetry; apply Nat.even_spec; by exists (length data)).
  replace (2 * length data / 2)%nat with (length data)
    by (rewrite Nat.mul_comm, Nat.div_mul; lia).
  by apply nibble_unpack_pairs_pack.
Qed.

Lemma nibble_block_length (iv : bytes) : length (Nibble.block iv) = 16%nat.
Proof.
  unfold Nibble.block. rewrite length_take, length_app, repeat_length. lia.
Qed.

#[export] Instance nibble_laws : FernetLaws nibble_fernet.
Proof.
  split; simpl; intros key now iv data Hk Hd.
  - apply Forall_app. split; apply nibble_pack_ascii.
  - unfold Nibble.decrypt, Nibble.encrypt. rewrite Hk.
    rewrite drop_app_length'; [by apply nibble_unpack_pack|].
    by rewrite nibble_pack_length, nibble_block_length.
Qed.

(** ** Cipher round trip *)

Section CipherFacts.
Context {F : FernetLib} {L : FernetLaws F}.

Lemma encrypt_text_ok (a : NotesApp) (e : entropy) (p : pystr) (data : bytes) :
  fernet_key_ok (key a) = true ->
  utf8_encode p = Some data ->
  encrypt_text a e p =
    Ok (List.map Z.to_N (fernet_encrypt (key a) (clock e) (iv e) data)).
Proof.
  intros Hk Hp. unfold encrypt_text, encode. rewrite Hk, Hp. simpl.
  unfold decode. rewrite utf8_decode_ascii; [done|].
  apply fernet_token_ascii; [done|]. by eapply utf8_encode_bytes.
Qed.

Lemma decrypt_text_token (a : NotesApp) (e : entropy) (p : pystr) (data : bytes) :
  fernet_key_ok (key a) = true ->
  utf8_encode p = Some data ->
  decrypt_text a (List.map Z.to_N (fernet_encrypt (key a) (clock e) (iv e) data)) = Ok p.
Proof.
  intros Hk Hp. unfold decrypt_text, encode. rewrite Hk.
  assert (Hb : Forall is_byte data) by by eapply utf8_encode_bytes.
  rewrite utf8_encode_ascii by by apply fernet_token_ascii.
  simpl. rewrite fernet_decrypt_encrypt by done.
  unfold decode. by rewrite (utf8_decode_encode p data).
Qed.


End CipherFacts.



(** ** AccessGate *)

Lemma is_password_valid_unprotected (a : NotesApp) (now : datetime) :
  protected a = false -> is_password_valid a now = Ok true.
Proof. unfold protected, is_password_valid. by intros ->. Qed.

Lemma is_password_valid_protected (a : NotesApp) (now : datetime) (S : Z) :
  protected a = true ->
  configured_timeout a = VInt S ->
  is_password_valid a now =
    Ok match last_password_entry a with
       | Some T => to_microseconds now <? to_microseconds T + S * 1000000
       | None => false
       end.
Proof.
  unfold protected, configured_timeout, is_password_valid. intros -> ->.
  cbn [negb]. destruct (last_password_entry a) as [T|]; [|done].
  cbn [elapsed_lt mbind result_bind].
  destruct (Z.ltb_spec (to_microseconds now - to_microseconds T) (S * 1000000)),
           (Z.ltb_spec (to_microseconds now) (to_microseconds T + S * 1000000));
    (done || lia).
Qed.





(** ** KeyStore *)

(** C4 (as amended): a fresh key is generated and persisted exactly when
    the key file is absent; when the file can be read its bytes are returned
    unchanged and nothing is written, whether or not they form a usable key;
    when it cannot be read the error is raised (and start-up fails with it)
    and no key is generated. *)
Theorem load_key_spec (fresh_key : bytes) (d : disk) :
  match secret_key d with
  | Absent =>
      load_key fresh_key d =
        Ok (fresh_key, {| config_json := config_json d;
                          secret_key := Present fresh_key;
                          notes_json := notes_json d |})
  | Present b => load_key fresh_key d = Ok (b, d)
  | Unreadable =>
      load_key fresh_key d = Raise PermissionError
      /\ exists e, NotesApp_init fresh_key d = Raise e
  end.
Proof.
  unfold NotesApp_init, load_key. destruct (secret_key d); try done.
  split; [done|]. destruct (load_notes_from_file d); by eexists.
Qed.

(** C4 (as stated) fails: a key file whose content is not a Fernet key is
    read back without any error, start-up succeeds with it, and only later
    does every [encrypt_text] raise. *)
Lemma load_key_corrupt_no_error :
  let d := {| config_json := Absent; secret_key := Present (bytes_lit "corrupt");
              notes_json := Absent |} in
  load_key sample_key d = Ok (bytes_lit "corrupt", d)
  /\ (exists a, NotesApp_init sample_key d = Ok (a, d) /\ key a = bytes_lit "corrupt"
        /\ encrypt_text a sample_entropy (py "Hello") = Raise ValueError).
Proof.
  split; [reflexivity|]. eexists. split; [reflexivity|]. split; reflexivity.
Qed.

(** ** ConfigStore *)

Lemma load_config_never_raises (d : disk) : exists v, load_config d = Ok v.
Proof.
  unfold load_config, try_except.
  destruct (exists_ (config_json d)); simpl; [|by eexists].
  match goal with |- context [match ?x with _ => _ end] => destruct x end; by eexists.
Qed.

Lemma load_config_defaults (d : disk) :
  config_json d = Absent \/ config_json d = Unreadable
  \/ config_json d = Present Unparsable ->
  load_config d = Ok (VDict default_config).
Proof. unfold load_config. by intros [-> | [-> | ->]]. Qed.

Lemma union_singleton_present (c : gmap pystr value) (k : pystr) (v : value) :
  is_Some (c !! k) -> c ∪ {[k := v]} = c.
Proof.
  intros [x Hx]. apply map_eq. intros i. rewrite lookup_union.
  destruct (decide (i = k)) as [->|Hne].
  - by rewrite Hx, lookup_singleton_eq.
  - rewrite lookup_singleton_ne by done. by destruct (c !! i).
Qed.

Lemma fill_key_dict (c : gmap pystr value) (k : pystr) (v : value) :
  default_config !! k = Some v ->
  fill_key (VDict c) k = Ok (VDict (c ∪ {[k := v]})).
Proof.
  intros Hk. unfold fill_key. cbn [contains mbind result_bind].
  destruct (c !! k) as [x|] eqn:Hc.
  - rewrite bool_decide_eq_true_2 by by eexists. cbn [negb].
    by rewrite union_singleton_present by by eexists.
  - rewrite bool_decide_eq_false_2 by (intros [? ?]; done). cbn [negb getitem].
    rewrite Hk. cbn [mbind result_bind setitem].
    by rewrite insert_union_singleton_r.
Qed.

Lemma default_config_union :
  default_config =
    ({[py "password_protected" := VBool false]} : gmap pystr value)
    ∪ ({[py "password_hash" := VStr []]} ∪ {[py "password_timeout" := VInt 60]}).
Proof.
  unfold default_config. rewrite !insert_union_singleton_l. by rewrite (right_id_L ∅ (∪)).
Qed.

(** A configuration document that is a JSON object keeps its entries and
    gains the default of every key it lacks. *)
Lemma load_config_object (d : disk) (c : gmap pystr value) :
  config_json d = Present (Parses (VDict c)) ->
  load_config d = Ok (VDict (c ∪ default_config)).
Proof.
  intros Hd. unfold load_config. rewrite Hd.
  cbn [exists_ negb open_json_load mbind result_bind fill_keys default_keys].
  rewrite (fill_key_dict c _ (VBool false)) by done. cbn [mbind result_bind].
  rewrite (fill_key_dict _ _ (VStr [])) by done. cbn [mbind result_bind].
  rewrite (fill_key_dict _ _ (VInt 60)) by done. cbn [mbind result_bind try_except].
  by rewrite default_config_union, !(assoc_L (∪)).
Qed.

Lemma load_config_object_lookup (d : disk) (c : gmap pystr value) (k : pystr) :
  config_json d = Present (Parses (VDict c)) ->
  exists c', load_config d = Ok (VDict c') /\
    c' !! k = match c !! k with Some v => Some v | None => default_config !! k end.
Proof.
  intros Hd. eexists. split; [by apply load_config_object|].
  rewrite lookup_union. by destruct (c !! k), (default_config !! k).
Qed.

(** C5: the merge misses the documents that are not objects. A JSON array
    that lists the three key names passes every [key not in config] test, so
    it is returned as the configuration, with no key filled in; start-up then
    fails on [self.config.get]. *)
Theorem load_config_array_of_keys :
  let d := {| config_json := Present (Parses keys_document); secret_key := Absent;
              notes_json := Absent |} in
  load_config d = Ok keys_document
  /\ NotesApp_init sample_key d = Raise AttributeError.
Proof. split; reflexivity. Qed.

(** ** NoteRepository *)

Lemma note_dict_lookup (t c cr up ro : value) :
  let d := note_dict t c cr up ro in
  d !! py "title" = Some t /\ d !! py "content" = Some c
  /\ d !! py "created" = Some cr /\ d !! py "updated" = Some up
  /\ d !! py "read_only" = Some ro.
Proof. repeat split; vm_compute; reflexivity. Qed.

Lemma note_of_json_to_json (n : note) :
  valid_note n -> note_of_json (note_to_json n) = Ok n.
Proof.
  intros [Hc Hu]. unfold note_of_json, note_to_json, getitem, get, dict_get.
  destruct (note_dict_lookup (title n) (content n) (VStr (isoformat (created n)))
              (VStr (isoformat (updated n))) (read_only n))
    as (-> & -> & -> & -> & ->).
  cbn [mbind result_bind fromisoformat].
  rewrite !fromisoformat_isoformat by done. cbn [mbind result_bind].
  by destruct n.
Qed.

Lemma notes_of_json_to_json (ns : list note) :
  Forall valid_note ns -> notes_of_json (List.map note_to_json ns) = Ok ns.
Proof.
  induction 1 as [|n ns Hn _ IH]; [done|].
  cbn [List.map notes_of_json]. rewrite note_of_json_to_json, IH by done. done.
Qed.



Lemma notes_of_json_malformed (l : list value) :
  Exists malformed l -> exists e, notes_of_json l = Raise e.
Proof.
  induction 1 as [v l [e He]|v l _ [e IH]]; cbn [notes_of_json].
  - rewrite He. by eexists.
  - destruct (note_of_json v); [|by eexists]. rewrite IH. by eexists.
Qed.

Lemma notes_of_json_wellformed (l : list value) (ns : list note) :
  Forall2 (fun v n => note_of_json v = Ok n) l ns -> notes_of_json l = Ok ns.
Proof.
  induction 1 as [|v n l ns Hv _ IH]; [done|].
  cbn [notes_of_json]. by rewrite Hv, IH.
Qed.




(** ** Closing the editor *)

Lemma lstrip_blank (s : pystr) :
  Forall (fun c => isspace c = true) s -> lstrip s = [].
Proof. induction 1 as [|c s Hc _ IH]; [done|]. simpl. by rewrite Hc. Qed.

Lemma strip_blank (s : pystr) :
  Forall (fun c => isspace c = true) s -> strip s = [].
Proof. intros Hs. unfold strip. by rewrite lstrip_blank. Qed.

Section Editor.
Context {F : FernetLib}.

(** C10: when the editor is read-only, or its text is empty or only
    whitespace, closing it changes no note: the application state, and with
    it the list of notes and every field of every note, is returned as it
    was, no note is appended, and the only effect (in the second case) is
    that the unchanged list is written to the notes document. *)
Theorem close_notepad_blank_or_read_only (a : NotesApp) (d : disk)
    (now : datetime) (e1 e2 : entropy) :
  text_edit_read_only a = true \/ Forall (fun c => isspace c = true) (text_edit a) ->
  (close_notepad a d now e1 e2 = Ok (a, d)
   \/ close_notepad a d now e1 e2 = (d' ← save_notes_to_file (notes a) d; Ok (a, d')))
  /\ (forall a' d', close_notepad a d now e1 e2 = Ok (a', d') ->
        a' = a /\ notes a' = notes a /\ length (notes a') = length (notes a))
  /\ (notes_json d <> Unreadable -> exists d', close_notepad a d now e1 e2 = Ok (a, d')).
Proof.
  intros Hcase.
  assert (Hshape :
    close_notepad a d now e1 e2 = Ok (a, d)
    \/ close_notepad a d now e1 e2 = (d' ← save_notes_to_file (notes a) d; Ok (a, d'))).
  { unfold close_notepad. destruct (text_edit_read_only a) eqn:Hro; [by left|].
    destruct Hcase as [?|Hblank]; [done|]. right. by rewrite strip_blank. }
  split; [exact Hshape|]. split.
  - intros a' d' Hclose.
    assert (a' = a) as ->; [|done].
    destruct Hshape as [H|H]; rewrite H in Hclose.
    + by injection Hclose.
    + destruct (save_notes_to_file (notes a) d); [by injection Hclose|done].
  - intros Hw. destruct Hshape as [H|H]; rewrite H; [by eexists|].
    unfold save_notes_to_file. destruct (notes_json d); [by eexists|done|by eexists].
Qed.

End Editor.

Lemma close_notepad_blank_or_read_only_witness :
  exists d', close_notepad blank_editor empty_disk noon sample_entropy sample_entropy
             = Ok (blank_editor, d').
Proof.
  apply (close_notepad_blank_or_read_only blank_editor empty_disk noon
           sample_entropy sample_entropy).
  - right. repeat constructor.
  - discriminate.
Defined.

(** A non-blank text does change the open note. *)
Example close_notepad_edits :
  match close_notepad (set_text (py "Hello" ++ newline ++ py "World") blank_editor)
          empty_disk (after_noon 90 0) sample_entropy sample_entropy with
  | Ok (a', _) =>
      match notes a' with
      | [n'] =>
          created n' = noon /\ updated n' = after_noon 90 0
          /\ decrypt_field a' (title n') = Ok (py "Hello")
          /\ decrypt_field a' (content n') = Ok (py "World")
      | _ => False
      end
  | Raise _ => False
  end.
Proof. vm_compute. repeat split; reflexivity. Qed.

(** ** Settings *)

Lemma save_app_config_writable (a : NotesApp) (d : disk) :
  config_json d <> Unreadable ->
  save_app_config a d =
    Ok {| config_json := Present (Parses (VDict (config a)));
          secret_key := secret_key d; notes_json := notes_json d |}.
Proof. unfold save_app_config, save_config. by destruct (config_json d). Qed.

(** C7: switching protection off sets [password_protected] to [False],
    writes the configuration, and changes nothing else: every other key, the
    stored hash in particular, keeps its value and no dialog is shown.
    Switching protection on again while a hash is stored sets the flag
    without any prompt and keeps the hash. *)
Theorem disable_protection_keeps_hash (a : NotesApp) (d : disk)
    (ans confirm : dialog_answer) :
  config_json d <> Unreadable ->
  exists a' d',
    onPasswordProtectionToggled false a d ans confirm = Ok (a', d', [])
    /\ a' = set_config (<[py "password_protected" := VBool false]> (config a)) a
    /\ config a' !! py "password_protected" = Some (VBool false)
    /\ (forall k, k <> py "password_protected" -> config a' !! k = config a !! k)
    /\ config a' !! py "password_hash" = config a !! py "password_hash"
    /\ config_json d' = Present (Parses (VDict (config a')))
    /\ (truthy (dict_get (config a) (py "password_hash") VNone) = true ->
        forall ans' confirm',
        exists a'' d'',
          onPasswordProtectionToggled true a' d' ans' confirm' = Ok (a'', d'', [])
          /\ config a'' !! py "password_protected" = Some (VBool true)
          /\ config a'' !! py "password_hash" = config a !! py "password_hash").
Proof.
  intros Hw. unfold onPasswordProtectionToggled at 1. unfold protection_off.
  rewrite save_app_config_writable by done. cbn [mbind result_bind].
  do 2 eexists. split; [reflexivity|]. cbn [config set_config config_json].
  split; [done|]. split; [apply lookup_insert_eq|].
  split; [by intros k Hk; rewrite lookup_insert_ne|].
  split; [by rewrite lookup_insert_ne|]. split; [done|].
  intros Hhash ans' confirm'. unfold onPasswordProtectionToggled, protection_on.
  cbn [config set_config]. unfold dict_get in *.
  rewrite lookup_insert_ne by done. rewrite Hhash. cbn [negb].
  rewrite save_app_config_writable by done. cbn [mbind result_bind].
  do 2 eexists. split; [reflexivity|]. cbn [config set_config].
  split; [apply lookup_insert_eq|]. by rewrite !lookup_insert_ne.
Qed.

Lemma disable_protection_keeps_hash_witness :
  exists a' d',
    onPasswordProtectionToggled false
      (sample_app (protected_config secret_hash 60) None) empty_disk cancelled cancelled
      = Ok (a', d', [])
    /\ config a' !! py "password_hash" = Some (VStr secret_hash).
Proof.
  destruct (disable_protection_keeps_hash
              (sample_app (protected_config secret_hash 60) None) empty_disk
              cancelled cancelled) as (a' & d' & H & _ & _ & _ & Hh & _).
  - discriminate.
  - exists a', d'. split; [exact H|]. rewrite Hh. reflexivity.
Defined.

Lemma sha256_round_length (st : list Z) (kw : Z * Z) :
  length st = 8%nat -> length (SHA256.round st kw) = 8%nat.
Proof. intros Hst. do 9 (destruct st as [|? st]; try done). Qed.

Lemma sha256_compress_length (h : list Z) (block : bytes) :
  length h = 8%nat -> length (SHA256.compress h block) = 8%nat.
Proof.
  intros Hh. unfold SHA256.compress. rewrite length_zip_with.
  set (kw := combine _ _). clearbody kw.
  assert (Hst : forall st, length st = 8%nat ->
                  length (fold_left SHA256.round kw st) = 8%nat).
  { induction kw as [|x kw IH]; intros st Hst; [done|].
    cbn [fold_left]. by apply IH, sha256_round_length. }
  rewrite (Hst h Hh). lia.
Qed.

Lemma sha256_blocks_length (n : nat) : forall (h : list Z) (p : bytes),
  length h = 8%nat -> length (SHA256.blocks n h p) = 8%nat.
Proof.
  induction n as [|n IH]; intros h p Hh; [done|].
  cbn [SHA256.blocks]. by apply IH, sha256_compress_length.
Qed.

Lemma hexdigest_nonempty (b : bytes) : SHA256.hexdigest b <> [].
Proof.
  unfold SHA256.hexdigest, SHA256.digest.
  pose proof (sha256_blocks_length (length (SHA256.pad b) / 64) SHA256.H0
                (SHA256.pad b) eq_refl) as Hlen.
  destruct (SHA256.blocks _ _ _) as [|x h]; [done|].
  cbn [flat_map SHA256.be_bytes app]. done.
Qed.

Lemma hash_password_truthy (p h : pystr) :
  hash_password p = Ok h -> truthy (VStr h) = true.
Proof.
  unfold hash_password. destruct (encode p) as [b|]; [|done].
  cbn [mbind result_bind]. intros [= <-].
  pose proof (hexdigest_nonempty b). simpl. by destruct (SHA256.hexdigest b).
Qed.



